(** * stitcher: camera feeds, capture orchestration and the configuration prompt

    A shallow embedding of [app/util/feed.py], [app/util/capture.py],
    [configure.py] and [utils/sorted_dict.py].  The vision library (cv2,
    imutils), the distortion corrector, the text formatter, the clocks and
    the YAML representer are outside the inspected code: the first five are
    taken as a [Platform] the program runs on, the representer is the few
    lines of PyYAML the two dictionary classes are written against.

    Python statements become programs of a small state-and-exception monad
    over an explicit world; the world keeps the log of every externally
    visible call, in order, so that "what was opened, written, released"
    can be read off a run even when it ends in an exception. *)

From Stdlib Require Import ZArith QArith List String Ascii Lia Bool.
From Stdlib Require Import DecimalString Permutation Sorted Lqa.
Import ListNotations.

Local Open Scope Z_scope.
Local Open Scope string_scope.

(** ** Exceptions and the program monad *)

Inductive exn : Type :=
| ValueError                      (* int() on a non-numeric string *)
| UnboundLocalError (name : string)
| EOFError                        (* raw_input() at end of input *)
| AttributeError (attr : string)  (* attribute lookup on None *)
| ZeroDivisionError               (* 1.0 / 0 *)
| IOError                         (* open() on a missing directory *)
| ExternalError.                  (* a collaborator failed on a missing frame *)

Inductive outcome (A : Type) : Type :=
| Ret (a : A)
| Raise (e : exn)
| OutOfFuel.

Arguments Ret {A} a.
Arguments Raise {A} e.
Arguments OutOfFuel {A}.

Module Prog.
Section WithState.
Context {S : Type}.

Definition M (A : Type) : Type := S -> outcome A * S.

Definition ret {A} (a : A) : M A := fun s => (Ret a, s).

Definition bind {A B} (m : M A) (k : A -> M B) : M B :=
  fun s =>
    match m s with
    | (Ret a, s') => k a s'
    | (Raise e, s') => (Raise e, s')
    | (OutOfFuel, s') => (OutOfFuel, s')
    end.

Definition raise {A} (e : exn) : M A := fun s => (Raise e, s).
Definition get : M S := fun s => (Ret s, s).
Definition modify (f : S -> S) : M unit := fun s => (Ret tt, f s).

(** [try: body except e: handler], for the one exception the handler names *)
Definition try_except {A} (body : M A) (catches : exn -> bool)
           (handler : M A) : M A :=
  fun s =>
    match body s with
    | (Raise e, s') => if catches e then handler s' else (Raise e, s')
    | r => r
    end.
End WithState.
End Prog.

Notation "x <- m ;; k" := (Prog.bind m (fun x => k))
  (at level 61, m at next level, right associativity).
Notation "m ;;; k" := (Prog.bind m (fun _ => k))
  (at level 61, right associativity).

(** ** Strings: [str(int)] and two-digit fields *)

Definition str_Z (n : Z) : string := NilZero.string_of_int (Z.to_int n).

(** [%m], [%d], [%H], [%M], [%S]: decimal, zero-padded to two characters *)
Definition pad2 (n : Z) : string :=
  if (n <? 10)%Z then "0" ++ str_Z n else str_Z n.

Definition digit (n : Z) : ascii := ascii_of_nat (48 + Z.to_nat n).

(** ** Frames, sources and the platform *)

Record frame : Type := mkFrame {
  shape : Z * Z;        (* (height, width), as [frame.shape[:2]] *)
  pixels : list Z
}.

Inductive source : Type :=
| Camera (index : Z)
| File (path : string).

Record datetime : Type := mkDatetime {
  year : Z; month : Z; day : Z;
  hour : Z; minute : Z; second : Z;
  microsecond : Z
}.

(** What the program calls but does not own.  [time_time n] and
    [datetime_now n] are the values the n-th clock reading of a run returns;
    [stream src k p] is the frame at position [p] of the k-th capture object
    opened in the run, when that object is opened on [src] ([None]: nothing
    to grab there). *)
Class Platform : Type := {
  os_path_sep : string;
  time_time : nat -> Q;
  datetime_now : nat -> datetime;
  stream : source -> nat -> nat -> option frame;
  correct_distortion : frame -> frame;
  imutils_resize : frame -> Z -> frame;
  color_text : string -> string -> string;
  get_check : string;
  get_xmark : string
}.

(** ** The world and its log *)

Inductive event : Type :=
| EvOpen (src : source)                     (* cv2.VideoCapture(src) *)
| EvRelease (src : source)                  (* capture.release() *)
| EvPrint (msg : string)                    (* print(msg) *)
| EvStderr (msg : string)                   (* sys.stderr.write(msg) *)
| EvInfo (msg : string)                     (* TextFormatter.print_info *)
| EvError (msg : string)                    (* TextFormatter.print_error *)
| EvSleep (d : Q)                           (* time.sleep(d) *)
| EvImwrite (path : string) (f : frame)     (* cv2.imwrite *)
| EvWriterOpen (path : string) (fourcc : string) (fps : Z) (size : Z * Z)
| EvWriterWrite (f : frame)
| EvWriterRelease.

Record world : Type := mkWorld {
  ticks : nat;          (* clock readings made so far *)
  opens : nat;          (* capture objects constructed so far *)
  log : list event      (* oldest first *)
}.

Definition world0 : world := mkWorld 0 0 [].

Definition emit (e : event) : Prog.M unit :=
  Prog.modify (fun w => mkWorld (ticks w) (opens w) (log w ++ [e])).

Section Clock.
Context {P : Platform}.

Definition read_time : Prog.M Q :=
  fun w => (Ret (time_time (ticks w)), mkWorld (S (ticks w)) (opens w) (log w)).

Definition read_datetime : Prog.M datetime :=
  fun w => (Ret (datetime_now (ticks w)),
            mkWorld (S (ticks w)) (opens w) (log w)).
End Clock.

(** ** capture.py: file names *)

(** [timestamp.strftime("%Y-%m-%d-%H-%M-%S")] *)
Definition strftime (t : datetime) : string :=
  str_Z (year t) ++ "-" ++ pad2 (month t) ++ "-" ++ pad2 (day t) ++ "-" ++
  pad2 (hour t) ++ "-" ++ pad2 (minute t) ++ "-" ++ pad2 (second t).

(** ["{}.{}".format(stamp, filetype)] *)
Definition filename_of (t : datetime) (filetype : string) : string :=
  strftime t ++ "." ++ filetype.

Section Filepath.
Context {P : Platform}.

(** [os.path.sep.join((output_folder, filename))] *)
Definition filepath_of (t : datetime) (output_folder filetype : string) : string :=
  output_folder ++ os_path_sep ++ filename_of t filetype.

Definition create_filepath (output_folder filetype : string) : Prog.M string :=
  timestamp <- read_datetime ;;
  Prog.ret (filepath_of timestamp output_folder filetype).
End Filepath.

(** ** cv2.VideoCapture *)

Definition W : Type -> Type := @Prog.M world.

Record capture : Type := mkCapture {
  cap_src : source;
  cap_session : nat;    (* which capture object of the run this is *)
  cap_opened : bool;
  cap_pos : nat         (* frames grabbed so far *)
}.

Section VideoCapture.
Context {P : Platform}.

(** [cv2.VideoCapture(src)] *)
Definition VideoCapture (src : source) : W capture :=
  fun w => (Ret (mkCapture src (opens w) true 0),
            mkWorld (ticks w) (S (opens w)) (log w ++ [EvOpen src])).

Definition frame_at (c : capture) (p : nat) : option frame :=
  if cap_opened c then stream (cap_src c) (cap_session c) p else None.

(** [capture.grab()]: advance past one frame when there is one *)
Definition grab (c : capture) : bool * capture :=
  match frame_at c (cap_pos c) with
  | Some _ => (true, mkCapture (cap_src c) (cap_session c) (cap_opened c)
                               (S (cap_pos c)))
  | None => (false, c)
  end.

(** [capture.retrieve()]: decode the frame the last grab advanced past *)
Definition retrieve (c : capture) : bool * option frame :=
  match cap_pos c with
  | O => (false, None)
  | S p => match frame_at c p with
           | Some f => (true, Some f)
           | None => (false, None)
           end
  end.

(** [capture.read()]: grab, then retrieve when the grab succeeded *)
Definition read (c : capture) : (bool * option frame) * capture :=
  let '(ok, c') := grab c in
  if ok then (retrieve c', c') else ((false, None), c').

(** [capture.release()] *)
Definition release (c : capture) : W capture :=
  emit (EvRelease (cap_src c)) ;;;
  Prog.ret (mkCapture (cap_src c) (cap_session c) false (cap_pos c)).

(** Modelled from the spec: the distortion corrector and the resize are
    not in the inspected code; "if the underlying read yields no frame,
    downstream resize/correct calls will fail".  On a frame they are the
    platform's functions. *)
Definition call_correct (f : option frame) : W (option frame) :=
  match f with
  | Some fr => Prog.ret (Some (correct_distortion fr))
  | None => Prog.raise ExternalError
  end.

Definition call_resize (f : option frame) (width : Z) : W (option frame) :=
  match f with
  | Some fr => Prog.ret (Some (imutils_resize fr width))
  | None => Prog.raise (AttributeError "shape")
  end.
End VideoCapture.

(** ** feed.py *)

(** the abstract class [Feed]; a method returns the object as it left it *)
Class Feed (F : Type) : Type := {
  has_next : F -> W (bool * F);
  get_next : bool -> bool -> F -> W (option frame * F);
  is_valid : F -> W (bool * F);
  close : F -> W F
}.

Record CameraFeed : Type := mkCameraFeed {
  feed_index : Z;
  camera_feed : capture;
  cam_width : Z;
  cam_height : Z;
  cam_fps : Z;
  frame_duration : Q
}.

Record VideoFeed : Type := mkVideoFeed {
  vid_path : string;
  video_feed : capture;
  vid_width : Z;
  vid_height : Z
}.

Definition set_camera_feed (self : CameraFeed) (c : capture) : CameraFeed :=
  mkCameraFeed (feed_index self) c (cam_width self) (cam_height self)
               (cam_fps self) (frame_duration self).

Definition set_video_feed (self : VideoFeed) (c : capture) : VideoFeed :=
  mkVideoFeed (vid_path self) c (vid_width self) (vid_height self).

(** the "fps residual" of [CameraFeed.get_next] *)
Definition fps_residual : Q := 72906 # 1000000.

Definition Qpositive (q : Q) : bool := (0 <? Qnum q)%Z.

Section Feeds.
Context {P : Platform}.

(** [CameraFeed.__init__]; [1.0 / fps] divides by zero when [fps] is 0 *)
Definition CameraFeed_init (index width height fps : Z) : W CameraFeed :=
  c <- VideoCapture (Camera index) ;;
  if (fps =? 0)%Z then Prog.raise ZeroDivisionError
  else Prog.ret (mkCameraFeed index c width height fps (1 / inject_Z fps)).

(** [CameraFeed(index)]: width=640, height=480, fps=30 *)
Definition CameraFeed_new (index : Z) : W CameraFeed :=
  CameraFeed_init index 640 480 30.

Definition CameraFeed_is_valid (self : CameraFeed) : W (bool * CameraFeed) :=
  let '(frame_indicator, c) := grab (camera_feed self) in
  if frame_indicator then
    emit (EvPrint ("Index " ++ color_text (str_Z (feed_index self)) "magenta"
                   ++ " is valid " ++ get_check)) ;;;
    _ <- release c ;;
    c' <- VideoCapture (Camera (feed_index self)) ;;
    Prog.ret (true, set_camera_feed self c')
  else
    emit (EvPrint ("Index " ++ color_text (str_Z (feed_index self)) "magenta"
                   ++ " is invalid " ++ get_xmark)) ;;;
    Prog.ret (false, set_camera_feed self c).

Definition CameraFeed_has_next (self : CameraFeed) : W (bool * CameraFeed) :=
  let '(ok, c) := grab (camera_feed self) in
  Prog.ret (ok, set_camera_feed self c).

Definition CameraFeed_retrieve_next (self : CameraFeed) : bool * option frame :=
  retrieve (camera_feed self).

Definition CameraFeed_get_next (resize correct : bool) (self : CameraFeed)
  : W (option frame * CameraFeed) :=
  start_time <- read_time ;;
  let '((_, frame0), c) := read (camera_feed self) in
  frame1 <- (if correct then call_correct frame0 else Prog.ret frame0) ;;
  frame2 <- (if resize then call_resize frame1 (cam_width self)
             else Prog.ret frame1) ;;
  end_time <- read_time ;;
  let elapsed_time := (end_time - start_time)%Q in
  let time_left := (frame_duration self - elapsed_time)%Q in
  let time_left_adjusted := (time_left - fps_residual)%Q in
  (if Qpositive time_left_adjusted then emit (EvSleep time_left_adjusted)
   else Prog.ret tt) ;;;
  Prog.ret (frame2, set_camera_feed self c).

(** [ramp]: [num_frames] calls of [get_next()], results dropped *)
Fixpoint ramp_loop (n : nat) (self : CameraFeed) : W CameraFeed :=
  match n with
  | O => Prog.ret self
  | S n' =>
      r <- CameraFeed_get_next true true self ;;
      ramp_loop n' (snd r)
  end.

Definition ramp (num_frames : Z) (self : CameraFeed) : W CameraFeed :=
  ramp_loop (Z.to_nat num_frames) self.

Definition CameraFeed_close (self : CameraFeed) : W CameraFeed :=
  c <- release (camera_feed self) ;;
  Prog.ret (set_camera_feed self c).

(** [VideoFeed(path)]: width=640, height=480 *)
Definition VideoFeed_new (path : string) : W VideoFeed :=
  c <- VideoCapture (File path) ;;
  Prog.ret (mkVideoFeed path c 640 480).

Definition VideoFeed_is_valid (self : VideoFeed) : W (bool * VideoFeed) :=
  let '(frame_indicator, c) := grab (video_feed self) in
  if frame_indicator then
    emit (EvStderr ("Video file " ++ color_text (vid_path self) "magenta"
                    ++ " is valid " ++ get_check)) ;;;
    _ <- release c ;;
    c' <- VideoCapture (File (vid_path self)) ;;
    Prog.ret (true, set_video_feed self c')
  else
    emit (EvStderr ("Video file " ++ color_text (vid_path self) "magenta"
                    ++ " is invalid " ++ get_xmark)) ;;;
    Prog.ret (false, set_video_feed self c).

Definition VideoFeed_has_next (self : VideoFeed) : W (bool * VideoFeed) :=
  let '(ok, c) := grab (video_feed self) in
  Prog.ret (ok, set_video_feed self c).

Definition VideoFeed_get_next (resize correct : bool) (self : VideoFeed)
  : W (option frame * VideoFeed) :=
  let '((_, frame0), c) := read (video_feed self) in
  frame1 <- (if correct then call_correct frame0 else Prog.ret frame0) ;;
  frame2 <- (if resize then call_resize frame1 (vid_width self)
             else Prog.ret frame1) ;;
  Prog.ret (frame2, set_video_feed self c).

Definition VideoFeed_close (self : VideoFeed) : W VideoFeed :=
  c <- release (video_feed self) ;;
  Prog.ret (set_video_feed self c).

#[export] Instance CameraFeed_Feed : Feed CameraFeed := {
  has_next := CameraFeed_has_next;
  get_next := CameraFeed_get_next;
  is_valid := CameraFeed_is_valid;
  close := CameraFeed_close
}.

#[export] Instance VideoFeed_Feed : Feed VideoFeed := {
  has_next := VideoFeed_has_next;
  get_next := VideoFeed_get_next;
  is_valid := VideoFeed_is_valid;
  close := VideoFeed_close
}.
End Feeds.

(** ** capture.py *)

Definition Qlt_bool (a b : Q) : bool :=
  (Qnum a * QDen b <? Qnum b * QDen a)%Z.

Definition is_sleep (e : event) : bool :=
  match e with EvSleep _ => true | _ => false end.

(** the log without the pacing sleeps *)
Definition device_log (w : world) : list event :=
  filter (fun e => negb (is_sleep e)) (log w).

Section Capture.
Context {P : Platform}.

(** [cv2.imwrite(filepath, frame)] *)
Definition imwrite (filepath : string) (f : option frame) : W unit :=
  match f with
  | Some fr => emit (EvImwrite filepath fr)
  | None => Prog.raise ExternalError
  end.

Definition capture_single_frame (index : Z) (output_dir filetype : string)
  : W unit :=
  camera_feed <- CameraFeed_new index ;;
  camera_feed <- ramp 30 camera_feed ;;
  r <- CameraFeed_get_next true true camera_feed ;;
  let '(frame, camera_feed) := r in
  filepath <- create_filepath output_dir filetype ;;
  imwrite filepath frame ;;;
  emit (EvInfo "Frame was captured.") ;;;
  _ <- CameraFeed_close camera_feed ;;
  Prog.ret tt.

(** [writer] is [None] until the first frame has been fetched *)
Definition open_writer (writer : option unit) (filepath : string) (fps : Z)
           (f : option frame) : W (option unit) :=
  match writer with
  | Some wr => Prog.ret (Some wr)
  | None =>
      match f with
      | Some fr =>
          let '(height, width) := shape fr in
          emit (EvWriterOpen filepath "MJPG" fps (width, height)) ;;;
          Prog.ret (Some tt)
      | None => Prog.raise (AttributeError "shape")
      end
  end.

Definition writer_write (f : option frame) : W unit :=
  match f with
  | Some fr => emit (EvWriterWrite fr)
  | None => Prog.raise ExternalError
  end.

Definition writer_release (writer : option unit) : W unit :=
  match writer with
  | Some _ => emit EvWriterRelease
  | None => Prog.raise (AttributeError "release")
  end.

(** [while time.time() < start_time + duration: ...] *)
Fixpoint video_loop (fuel : nat) (start_time : Q) (duration fps : Z)
         (filepath : string) (writer : option unit) (camera_feed : CameraFeed)
  : W (option unit * CameraFeed) :=
  match fuel with
  | O => fun w => (OutOfFuel, w)
  | S fuel' =>
      now <- read_time ;;
      if Qlt_bool now (start_time + inject_Z duration) then
        r <- CameraFeed_get_next true true camera_feed ;;
        let '(frame, camera_feed') := r in
        writer' <- open_writer writer filepath fps frame ;;
        writer_write frame ;;;
        video_loop fuel' start_time duration fps filepath writer' camera_feed'
      else Prog.ret (writer, camera_feed)
  end.

(** everything of [capture_single_video] after the feed is constructed *)
Definition capture_video_on (fuel : nat) (camera_feed : CameraFeed)
           (duration fps : Z) (output_dir filetype : string) : W unit :=
  camera_feed <- ramp fps camera_feed ;;
  start_time <- read_time ;;
  filepath <- create_filepath output_dir filetype ;;
  r <- video_loop fuel start_time duration fps filepath None camera_feed ;;
  let '(writer, camera_feed) := r in
  writer_release writer ;;;
  _ <- CameraFeed_close camera_feed ;;
  emit (EvInfo ("Video was captured for " ++ str_Z duration ++ " seconds.")).

Definition capture_single_video (fuel : nat) (index duration fps : Z)
           (output_dir filetype : string) : W unit :=
  camera_feed <- CameraFeed_new index ;;
  capture_video_on fuel camera_feed duration fps output_dir filetype.


(** [parse_args()]: [--type] (default "frame"), [--cameras] (default 1) *)
Record parsed_args : Type := mkArgs {
  capture_type : string;
  num_cameras : Z
}.

Definition default_args : parsed_args := mkArgs "frame" 1.

Definition main (fuel : nat) (parsed : parsed_args) : W unit :=
  if (capture_type parsed =? "frame")%string then
    if (num_cameras parsed =? 1)%Z then
      capture_single_frame 0 "out/captured_frames" "jpg"
    else
      emit (EvInfo ("You chose to capture frames for "
                    ++ str_Z (num_cameras parsed) ++ " cameras."))
  else if (capture_type parsed =? "video")%string then
    if (num_cameras parsed =? 1)%Z then
      capture_single_video fuel 0 5 30 "out/captured_videos" "avi"
    else
      emit (EvInfo ("You chose to capture video for "
                    ++ str_Z (num_cameras parsed) ++ " cameras."))
  else
    emit (EvError "Please provide a proper capture argument.").
End Capture.

(** ** utils/sorted_dict.py and the representer it is written against *)

Inductive value : Type :=
| VInt (n : Z)
| VStr (s : string).

Definition item : Type := (string * value)%type.

(** [list.sort()] on the items of a dict: a stable sort; the keys of a dict
    are distinct, so the tuple order is the order of the keys *)
Fixpoint insert_item (x : item) (l : list item) : list item :=
  match l with
  | [] => [x]
  | y :: l' =>
      if (fst x <=? fst y)%string then x :: y :: l'
      else y :: insert_item x l'
  end.

Fixpoint sort_items (l : list item) : list item :=
  match l with
  | [] => []
  | x :: l' => insert_item x (sort_items l')
  end.

(** a list class: its elements and its in-place [sort] *)
Class ListLike (L : Type) : Type := {
  elements : L -> list item;
  sort : L -> L
}.

Record PyList : Type := mkPyList { py_elements : list item }.
Record UnsortableList : Type := mkUnsortableList { unsortable_elements : list item }.

#[export] Instance PyList_ListLike : ListLike PyList := {
  elements := py_elements;
  sort := fun l => mkPyList (sort_items (py_elements l))
}.

(** [def sort(self, *args, **kwargs): pass] *)
#[export] Instance UnsortableList_ListLike : ListLike UnsortableList := {
  elements := unsortable_elements;
  sort := fun l => l
}.

(** a mapping class: what [items()] returns *)
Class Mapping (D : Type) : Type := {
  items_type : Type;
  items_list :: ListLike items_type;
  items : D -> items_type
}.

(** The order in which a plain dict enumerates its entries is the hash
    table's: some rearrangement of them. *)
Class DictOrder : Type := {
  iteration_order : list item -> list item;
  iteration_order_perm : forall l, Permutation (iteration_order l) l
}.

(** entries as written, later values replacing earlier ones *)
Fixpoint dict_set (k : string) (v : value) (l : list item) : list item :=
  match l with
  | [] => [(k, v)]
  | (k', v') :: l' =>
      if (k =? k')%string then (k, v) :: l' else (k', v') :: dict_set k v l'
  end.

Definition dict_literal (l : list item) : list item :=
  fold_left (fun acc kv => dict_set (fst kv) (snd kv) acc) l [].

Record dict : Type := mkDict { dict_entries : list item }.
Record UnsortableOrderedDict : Type := mkUOD { ordered_entries : list item }.

#[export] Instance dict_Mapping {O : DictOrder} : Mapping dict := {
  items_type := PyList;
  items := fun d => mkPyList (iteration_order (dict_entries d))
}.

(** [return UnsortableList(OrderedDict.items(self, ...))] *)
#[export] Instance UnsortableOrderedDict_Mapping : Mapping UnsortableOrderedDict := {
  items_type := UnsortableList;
  items := fun d => mkUnsortableList (ordered_entries d)
}.

(** [represent_mapping]: [mapping = mapping.items(); mapping.sort()], then
    one node per item in that order *)
Definition represent_dict {D : Type} {MD : Mapping D} (mapping : D) : list item :=
  elements (sort (items mapping)).

(** ** configure.py *)

Module Configure.

Inductive io_event : Type :=
| Prompt (text : string)        (* raw_input writes its prompt *)
| Print (text : string)
| Dump (path : string) (nodes : list item).   (* yaml.dump into the open file *)

Record console : Type := mkConsole {
  stdin : list string;          (* the lines still to be read *)
  config_dir_exists : bool;
  trace : list io_event         (* oldest first *)
}.

Definition C : Type -> Type := @Prog.M console.

Definition say (e : io_event) : C unit :=
  Prog.modify (fun c => mkConsole (stdin c) (config_dir_exists c) (trace c ++ [e])).

Definition raw_input (prompt : string) : C string :=
  say (Prompt prompt) ;;;
  (fun c => match stdin c with
            | [] => (Raise EOFError, c)
            | line :: rest =>
                (Ret line, mkConsole rest (config_dir_exists c) (trace c))
            end).

(** [int(s)]: surrounding white space, an optional sign, decimal digits *)
Definition is_space (c : ascii) : bool :=
  let n := nat_of_ascii c in
  ((9 <=? n) && (n <=? 13) || (n =? 32))%nat.

Definition is_digit (c : ascii) : bool :=
  let n := nat_of_ascii c in ((48 <=? n) && (n <=? 57))%nat.

Fixpoint lstrip (s : string) : string :=
  match s with
  | String c s' => if is_space c then lstrip s' else s
  | EmptyString => EmptyString
  end.

Fixpoint rstrip (s : string) : string :=
  match s with
  | String c s' =>
      match rstrip s' with
      | EmptyString => if is_space c then EmptyString else String c EmptyString
      | t => String c t
      end
  | EmptyString => EmptyString
  end.

Fixpoint digits_value (acc : Z) (s : string) : option Z :=
  match s with
  | EmptyString => Some acc
  | String c s' =>
      if is_digit c
      then digits_value (10 * acc + (Z.of_nat (nat_of_ascii c) - 48)) s'
      else None
  end.

Definition unsigned_value (s : string) : option Z :=
  match s with
  | EmptyString => None
  | _ => digits_value 0 s
  end.

Definition int_of_str (s : string) : option Z :=
  match rstrip (lstrip s) with
  | String "-" t => option_map Z.opp (unsigned_value t)
  | String "+" t => unsigned_value t
  | t => unsigned_value t
  end.

Definition py_int (s : string) : C Z :=
  match int_of_str s with
  | Some n => Prog.ret n
  | None => Prog.raise ValueError
  end.

Definition is_ValueError (e : exn) : bool :=
  match e with ValueError => true | _ => false end.

(** [try: x = int(raw_input(p))  except ValueError: print ...]; the
    local [x] is bound ([Some]) only when the assignment was reached *)
Definition ask_int (prompt : string) : C (option Z) :=
  Prog.try_except
    (s <- raw_input prompt ;; n <- py_int s ;; Prog.ret (Some n))
    is_ValueError
    (say (Print "Please enter a number.") ;;; Prog.ret None).

(** reading a local variable *)
Definition local {A} (name : string) (x : option A) : C A :=
  match x with
  | Some a => Prog.ret a
  | None => Prog.raise (UnboundLocalError name)
  end.

Definition config_dir : string := "config".

(** [with open(path, 'w') as file: yaml.dump(settings, file, ...)] *)
Definition dump_to {D : Type} {MD : Mapping D} (path : string) (settings : D)
  : C unit :=
  c <- Prog.get ;;
  if config_dir_exists c then say (Dump path (represent_dict settings))
  else Prog.raise IOError.

Section Parse.
Context {O : DictOrder}.

Definition parse : C unit :=
  left_index <- ask_int "Enter index of left camera: " ;;
  right_index <- ask_int "Enter index of right camer: " ;;
  source_dir <- raw_input "Enter full path to image source directory: " ;;
  dest_dir <- raw_input "Enter full path to image output directory: " ;;
  key_frame <- raw_input "Enter full path to key frame image: " ;;
  width <- ask_int "Enter image width: " ;;
  format <- raw_input "Enter image format: " ;;
  left_index' <- local "left_index" left_index ;;
  right_index' <- local "right_index" right_index ;;
  width' <- local "width" width ;;
  let settings := mkDict (dict_literal
        [ ("left-index", VInt left_index');
          ("right-index", VInt right_index');
          ("source-dir", VStr source_dir);
          ("dest-dir", VStr dest_dir);
          ("key-frame", VStr key_frame);
          ("width", VInt width');
          ("format", VStr format) ]) in
  dump_to (config_dir ++ "/profile.yml") settings.

Definition main : C unit := parse.
End Parse.

(** the keys of the profile, in the order [parse] writes them in the
    dict literal *)
Definition profile_keys : list string :=
  ["left-index"; "right-index"; "source-dir"; "dest-dir"; "key-frame";
   "width"; "format"].

Definition dumps (c : console) : list (string * list item) :=
  flat_map (fun e => match e with Dump p n => [(p, n)] | _ => [] end) (trace c).

Definition prompts (c : console) : list string :=
  flat_map (fun e => match e with Prompt p => [p] | _ => [] end) (trace c).

Definition prints (c : console) : list string :=
  flat_map (fun e => match e with Print p => [p] | _ => [] end) (trace c).

End Configure.

(** ** Vocabulary of the statements *)

Definition two_digits (n : Z) : string :=
  String (digit (n / 10)) (String (digit (n mod 10)) EmptyString).

Definition four_digits (n : Z) : string :=
  String (digit (n / 1000)) (String (digit (n / 100 mod 10))
    (String (digit (n / 10 mod 10)) (String (digit (n mod 10)) EmptyString))).

(** [YYYY-MM-DD-HH-MM-SS], digit by digit *)
Definition stamp_form (t : datetime) : string :=
  four_digits (year t) ++ "-" ++ two_digits (month t) ++ "-" ++
  two_digits (day t) ++ "-" ++ two_digits (hour t) ++ "-" ++
  two_digits (minute t) ++ "-" ++ two_digits (second t).

(** a local time with a four-digit year *)
Definition valid_datetime (t : datetime) : Prop :=
  1000 <= year t <= 9999 /\ 1 <= month t <= 12 /\ 1 <= day t <= 31 /\
  0 <= hour t <= 23 /\ 0 <= minute t <= 59 /\ 0 <= second t <= 59.

(** two readings of the clock within one second: all but the microseconds agree *)
Definition same_second (a b : datetime) : Prop :=
  year a = year b /\ month a = month b /\ day a = day b /\
  hour a = hour b /\ minute a = minute b /\ second a = second b.

Definition advance_by (n : nat) (c : capture) : capture :=
  mkCapture (cap_src c) (cap_session c) (cap_opened c) (n + cap_pos c).

Definition imwrites (w : world) : list (string * frame) :=
  flat_map (fun e => match e with EvImwrite p f => [(p, f)] | _ => [] end) (log w).

Section Vocabulary.
Context {P : Platform}.

(** the frames a capture object delivers from position [p] on, at most [k] *)
Fixpoint frames_from (c : capture) (p k : nat) : list frame :=
  match k with
  | O => []
  | S k' =>
      match frame_at c p with
      | Some f => f :: frames_from c (S p) k'
      | None => []
      end
  end.

(** what [get_next(resize, correct)] does to a frame it has read *)
Definition processed (resize correct : bool) (width : Z) (f : frame) : frame :=
  let f1 := if correct then correct_distortion f else f in
  if resize then imutils_resize f1 width else f1.

(** the capture object [cv2.VideoCapture(src)] returns in world [w] *)
Definition fresh_capture (src : source) (w : world) : capture :=
  mkCapture src (opens w) true 0.

(** clock readings of [capture_single_video] started in [w0]: the one
    that gives [start_time], and the one of the i-th loop test *)
Definition start_tick (w0 : world) (fps : Z) : nat :=
  (ticks w0 + 2 * Z.to_nat fps)%nat.

Definition test_tick (w0 : world) (fps : Z) (i : nat) : nat :=
  (start_tick w0 fps + 2 + 3 * i)%nat.

(** wall-clock time since [start_time], as the i-th loop test sees it *)
Definition elapsed_at (w0 : world) (fps : Z) (i : nat) : Q :=
  (time_time (test_tick w0 fps i) - time_time (start_tick w0 fps))%Q.
End Vocabulary.

Definition valid_msg {P : Platform} (what name : string) : string :=
  what ++ color_text name "magenta" ++ " is valid " ++ get_check.

Definition invalid_msg {P : Platform} (what name : string) : string :=
  what ++ color_text name "magenta" ++ " is invalid " ++ get_xmark.

(** the order of the keys *)
Definition key_le (x y : item) : Prop := (fst x <=? fst y)%string = true.

(** the name [parse] fails on when some numeric field was not assigned *)
Definition first_unbound (left right width : option Z) : string :=
  match left, right, width with
  | None, _, _ => "left_index"
  | Some _, None, _ => "right_index"
  | Some _, Some _, _ => "width"
  end.

Definition complaints (fields : list (option Z)) : list string :=
  flat_map (fun x => match x with
                     | None => ["Please enter a number."]
                     | Some _ => []
                     end) fields.

Definition parse_prompts : list string :=
  [ "Enter index of left camera: "; "Enter index of right camer: ";
    "Enter full path to image source directory: ";
    "Enter full path to image output directory: ";
    "Enter full path to key frame image: ";
    "Enter image width: "; "Enter image format: " ].

(** ** A concrete platform, for running the definitions *)

Definition demo_datetime : datetime := mkDatetime 2026 11 4 10 12 33 250000.

(** every reading of the clock is a tenth of a second after the one before;
    every capture object delivers 480p frames without end *)
Definition demo_platform : Platform := {|
  os_path_sep := "/";
  time_time := fun n => (Z.of_nat n # 10);
  datetime_now := fun n =>
    mkDatetime 2026 11 4 10 12 33 (Z.of_nat n);
  stream := fun _ _ p => Some (mkFrame (480, 640) [Z.of_nat p]);
  correct_distortion := fun f => f;
  imutils_resize := fun f w =>
    mkFrame (fst (shape f) * w / snd (shape f), w) (pixels f);
  color_text := fun s _ => s;
  get_check := "ok";
  get_xmark := "x"
|}.

Definition frame_1 : frame := mkFrame (480, 640) [1].
Definition frame_2 : frame := mkFrame (480, 640) [2].

(** every file holds the two frames [frame_1], [frame_2]; no camera is
    attached *)
Definition file_platform : Platform := {|
  os_path_sep := "/";
  time_time := fun n => (Z.of_nat n # 10);
  datetime_now := fun n => demo_datetime;
  stream := fun src _ p =>
    match src, p with
    | File _, O => Some frame_1
    | File _, S O => Some frame_2
    | _, _ => None
    end;
  correct_distortion := fun f => f;
  imutils_resize := fun f w =>
    mkFrame (fst (shape f) * w / snd (shape f), w) (pixels f);
  color_text := fun s _ => s;
  get_check := "ok";
  get_xmark := "x"
|}.

(** a dict that happens to enumerate its entries as they were written *)
Definition written_order : DictOrder := {|
  iteration_order := fun l => l;
  iteration_order_perm := fun l => Permutation_refl l
|}.

(** a dict that enumerates its entries backwards *)
Definition reversed_order : DictOrder := {|
  iteration_order := fun l => rev l;
  iteration_order_perm := fun l => Permutation_sym (Permutation_rev l)
|}.

(** a feed on a file and a feed on camera 0, as their constructors leave
    them in [world0] *)
Definition demo_video_feed : VideoFeed :=
  mkVideoFeed "clip.avi" (mkCapture (File "clip.avi") 0 true 0) 640 480.

Definition demo_camera_feed : CameraFeed :=
  mkCameraFeed 0 (mkCapture (Camera 0) 0 true 0) 640 480 30 (1 # 30).

Definition world1 : world := mkWorld 0 1 [].

Definition demo_console (lines : list string) : Configure.console :=
  Configure.mkConsole lines true [].

(** * Theorems *)

(** ** Decimal fields *)

Lemma forall_range (lo hi : Z) (p : Z -> bool) :
  forallb (fun i => p (lo + Z.of_nat i)) (seq 0 (Z.to_nat (hi - lo))) = true ->
  forall z, lo <= z < hi -> p z = true.
Proof.
  intros H z Hz.
  rewrite forallb_forall in H.
  specialize (H (Z.to_nat (z - lo))).
  replace (lo + Z.of_nat (Z.to_nat (z - lo))) with z in H by lia.
  apply H. apply in_seq. lia.
Qed.

Lemma pad2_two_digits (n : Z) : 0 <= n <= 99 -> pad2 n = two_digits n.
Proof.
  intros Hn.
  apply String.eqb_eq.
  apply (forall_range 0 100 (fun z => String.eqb (pad2 z) (two_digits z))).
  - vm_compute. reflexivity.
  - lia.
Qed.

Lemma str_Z_four_digits (n : Z) : 1000 <= n <= 9999 -> str_Z n = four_digits n.
Proof.
  intros Hn.
  apply String.eqb_eq.
  apply (forall_range 1000 10000 (fun z => String.eqb (str_Z z) (four_digits z))).
  - vm_compute. reflexivity.
  - lia.
Qed.

Lemma strftime_stamp_form (t : datetime) :
  valid_datetime t -> strftime t = stamp_form t.
Proof.
  intros (Hy & Hm & Hd & Hh & Hmi & Hs).
  unfold strftime, stamp_form.
  rewrite str_Z_four_digits by assumption.
  rewrite !pad2_two_digits by lia.
  reflexivity.
Qed.

Lemma stamp_form_length (t : datetime) : String.length (stamp_form t) = 19%nat.
Proof. reflexivity. Qed.

Lemma strftime_length (t : datetime) :
  valid_datetime t -> String.length (strftime t) = 19%nat.
Proof. intros H. rewrite strftime_stamp_form by assumption. apply stamp_form_length. Qed.

Lemma strftime_same_second (a b : datetime) :
  same_second a b -> strftime a = strftime b.
Proof.
  intros (Hy & Hm & Hd & Hh & Hmi & Hs).
  unfold strftime. now rewrite Hy, Hm, Hd, Hh, Hmi, Hs.
Qed.

Lemma length_append (s1 s2 : string) :
  String.length (s1 ++ s2) = (String.length s1 + String.length s2)%nat.
Proof. induction s1 as [|c s1 IH]; simpl; [reflexivity | now rewrite IH]. Qed.

(** ** Capture objects *)

Section CaptureFacts.
Context {P : Platform}.

Lemma frame_at_advance (n : nat) (c : capture) (p : nat) :
  frame_at (advance_by n c) p = frame_at c p.
Proof. reflexivity. Qed.

Lemma advance_by_S (n : nat) (c : capture) :
  advance_by 1 (advance_by n c) = advance_by (S n) c.
Proof. reflexivity. Qed.

Lemma advance_by_add (a b : nat) (c : capture) :
  advance_by a (advance_by b c) = advance_by (a + b) c.
Proof. unfold advance_by. cbn. f_equal. lia. Qed.

Lemma advance_by_0 (c : capture) : advance_by 0 c = c.
Proof. now destruct c. Qed.

Lemma grab_some (c : capture) (f : frame) :
  frame_at c (cap_pos c) = Some f -> grab c = (true, advance_by 1 c).
Proof. intros H. unfold grab. now rewrite H. Qed.

Lemma grab_none (c : capture) :
  frame_at c (cap_pos c) = None -> grab c = (false, c).
Proof. intros H. unfold grab. now rewrite H. Qed.

Lemma read_some (c : capture) (f : frame) :
  frame_at c (cap_pos c) = Some f -> read c = ((true, Some f), advance_by 1 c).
Proof.
  intros H. unfold read. rewrite (grab_some c f H).
  unfold retrieve. cbn [advance_by cap_pos Nat.add].
  rewrite frame_at_advance. now rewrite H.
Qed.

Lemma read_none (c : capture) :
  frame_at c (cap_pos c) = None -> read c = ((false, None), c).
Proof. intros H. unfold read. now rewrite (grab_none c H). Qed.

Lemma frames_from_advance (n : nat) (c : capture) (p k : nat) :
  frames_from (advance_by n c) p k = frames_from c p k.
Proof.
  revert p. induction k as [|k IH]; intros p; cbn [frames_from]; [reflexivity|].
  rewrite frame_at_advance.
  destruct (frame_at c p); [now rewrite IH | reflexivity].
Qed.

(** a full run of [k] frames starts with a frame and goes on with [k-1] *)
Lemma frames_from_full_S (c : capture) (p k : nat) :
  List.length (frames_from c p (S k)) = S k ->
  exists f, frame_at c p = Some f /\
            frames_from c p (S k) = f :: frames_from c (S p) k /\
            List.length (frames_from c (S p) k) = k.
Proof.
  cbn [frames_from]. destruct (frame_at c p) as [f|]; [|discriminate].
  cbn [List.length]. intros H. exists f. repeat split. congruence.
Qed.

Lemma frames_from_full_split (c : capture) (n k p : nat) :
  List.length (frames_from c p (n + k)) = (n + k)%nat ->
  List.length (frames_from c p n) = n /\
  List.length (frames_from c (n + p) k) = k.
Proof.
  revert p. induction n as [|n IH]; intros p H.
  - split; [reflexivity | exact H].
  - destruct (frames_from_full_S c p (n + k) H) as (f & Hf & _ & Hrest).
    destruct (IH (S p) Hrest) as [H1 H2].
    split.
    + cbn [frames_from]. rewrite Hf. cbn [List.length]. now rewrite H1.
    + now replace (S n + p)%nat with (n + S p)%nat by lia.
Qed.
End CaptureFacts.

(** ** The log *)

Lemma device_log_sleep (w w' : world) (d : Q) :
  log w' = (log w ++ [EvSleep d])%list -> device_log w' = device_log w.
Proof.
  intros H. unfold device_log. rewrite H, filter_app. cbn. apply app_nil_r.
Qed.

Lemma device_log_emit (w w' : world) (e : event) :
  log w' = (log w ++ [e])%list -> is_sleep e = false ->
  device_log w' = (device_log w ++ [e])%list.
Proof.
  intros H He. unfold device_log. rewrite H, filter_app. cbn. now rewrite He.
Qed.


Lemma Qlt_bool_false (a b : Q) : Qlt_bool a b = false <-> (b <= a)%Q.
Proof. unfold Qlt_bool, Qle. rewrite Z.ltb_ge. reflexivity. Qed.

Section FeedFacts.
Context {P : Platform}.

(** one successful [get_next]: two clock readings, one frame, and nothing
    in the log but possibly a sleep *)
Lemma CameraFeed_get_next_some (resize correct : bool) (self : CameraFeed)
      (w : world) (f : frame) :
  frame_at (camera_feed self) (cap_pos (camera_feed self)) = Some f ->
  exists w',
    CameraFeed_get_next resize correct self w =
      (Ret (Some (processed resize correct (cam_width self) f),
            set_camera_feed self (advance_by 1 (camera_feed self))), w') /\
    ticks w' = (2 + ticks w)%nat /\ opens w' = opens w /\
    device_log w' = device_log w.
Proof.
  intros H. unfold CameraFeed_get_next, Prog.bind, read_time.
  rewrite (read_some _ f H).
  destruct correct, resize; cbn [call_correct call_resize Prog.ret processed];
    match goal with
    | |- context [Qpositive ?q] => destruct (Qpositive q)
    end;
    eexists; (split; [reflexivity|]); cbn [ticks opens log];
    repeat split; try (eapply device_log_sleep; reflexivity); reflexivity.
Qed.

Lemma ramp_loop_full (n : nat) : forall (self : CameraFeed) (w : world),
  List.length (frames_from (camera_feed self) (cap_pos (camera_feed self)) n) = n ->
  exists w',
    ramp_loop n self w =
      (Ret (set_camera_feed self (advance_by n (camera_feed self))), w') /\
    ticks w' = (2 * n + ticks w)%nat /\ opens w' = opens w /\
    device_log w' = device_log w.
Proof.
  induction n as [|n IH]; intros self w H.
  - exists w. cbn [ramp_loop Prog.ret]. rewrite advance_by_0.
    repeat split. now destruct self.
  - destruct (frames_from_full_S _ _ _ H) as (f & Hf & _ & Hrest).
    destruct (CameraFeed_get_next_some true true self w f Hf)
      as (w1 & Hrun & Ht & Ho & Hl).
    destruct (IH (set_camera_feed self (advance_by 1 (camera_feed self))) w1)
      as (w2 & Hrun2 & Ht2 & Ho2 & Hl2).
    { cbn [set_camera_feed camera_feed]. rewrite frames_from_advance.
      exact Hrest. }
    exists w2. cbn [ramp_loop]. unfold Prog.bind. rewrite Hrun. cbn [snd].
    rewrite Hrun2. repeat split; try congruence; try lia.
    unfold set_camera_feed.
    cbn [feed_index camera_feed cam_width cam_height cam_fps frame_duration].
    rewrite advance_by_add. now replace (n + 1)%nat with (S n) by lia.
Qed.
End FeedFacts.

(** ** capture.py: the video loop *)

Section VideoLoop.
Context {P : Platform}.

Lemma CameraFeed_new_run (index : Z) (w : world) :
  CameraFeed_new index w =
    (Ret (mkCameraFeed index (fresh_capture (Camera index) w) 640 480 30 (1 # 30)),
     mkWorld (ticks w) (S (opens w)) (log w ++ [EvOpen (Camera index)])).
Proof. reflexivity. Qed.


End VideoLoop.

(** ** capture.py: whole runs *)

Section CaptureRuns.
Context {P : Platform}.

Lemma capture_video_on_after_ramp (fuel : nat) (self self' : CameraFeed)
      (duration fps : Z) (output_dir filetype : string) (w w2 : world) :
  ramp_loop (Z.to_nat fps) self w = (Ret self', w2) ->
  capture_video_on fuel self duration fps output_dir filetype w =
    (r <- video_loop fuel (time_time (ticks w2)) duration fps
            (filepath_of (datetime_now (S (ticks w2))) output_dir filetype)
            None self' ;;
     let '(writer, camera_feed) := r in
     writer_release writer ;;;
     _ <- CameraFeed_close camera_feed ;;
     emit (EvInfo ("Video was captured for " ++ str_Z duration ++ " seconds.")))
    (mkWorld (S (S (ticks w2))) (opens w2) (log w2)).
Proof.
  intros H. unfold capture_video_on, ramp.
  unfold Prog.bind at 1. rewrite H. reflexivity.
Qed.

End CaptureRuns.

Lemma imwrites_device_log (w : world) :
  imwrites w =
  flat_map (fun e => match e with EvImwrite p f => [(p, f)] | _ => [] end)
           (device_log w).
Proof.
  unfold imwrites, device_log. induction (log w) as [|e l IH]; [reflexivity|].
  destruct e; cbn; rewrite IH; reflexivity.
Qed.

Section CaptureClaims.
Context {P : Platform}.


(** C10.  With [duration <= 0], a camera that delivers the warm-up
    frames and a clock that has not gone backwards between the reading of
    [start_time] and the first loop test: the loop returns at once with
    the writer still [None], [writer.release()] raises, and the only
    device event of the whole run is the opening of the camera: nothing
    was written and the camera was not released. *)
Theorem capture_single_video_nonpositive (index duration fps : Z)
        (output_dir filetype : string) (w0 : world) (fuel : nat) :
  let cam := fresh_capture (Camera index) w0 in
  let n := Z.to_nat fps in
  duration <= 0 ->
  (0 <= elapsed_at w0 fps 0)%Q ->
  List.length (frames_from cam 0 n) = n ->
  (0 < fuel)%nat ->
  exists (feed : CameraFeed) (w3 w4 w' : world),
    ticks w3 = test_tick w0 fps 0 /\
    video_loop fuel (time_time (start_tick w0 fps)) duration fps
               (filepath_of (datetime_now (S (start_tick w0 fps)))
                            output_dir filetype)
               None feed w3 = (Ret (None, feed), w4) /\
    log w4 = log w3 /\
    capture_single_video fuel index duration fps output_dir filetype w0 =
      (Raise (AttributeError "release"), w') /\
    device_log w' = (device_log w0 ++ [EvOpen (Camera index)])%list.
Proof.
  intros cam n Hd Hclock Hfr Hfuel.
  destruct fuel as [|fuel]; [lia|].
  set (feed := mkCameraFeed index cam 640 480 30 (1 # 30)).
  set (w1 := mkWorld (ticks w0) (S (opens w0)) (log w0 ++ [EvOpen (Camera index)])).
  destruct (ramp_loop_full n feed w1 Hfr) as (w2 & Hr & Ht & Ho & Hl).
  set (feed' := set_camera_feed feed (advance_by n (camera_feed feed))) in Hr.
  set (w3 := mkWorld (S (S (ticks w2))) (opens w2) (log w2)).
  assert (Hstart : ticks w2 = start_tick w0 fps)
    by (unfold start_tick; rewrite Ht; subst w1 n; cbn [ticks]; lia).
  assert (Htest : Qlt_bool (time_time (ticks w3))
                    (time_time (start_tick w0 fps) + inject_Z duration) = false).
  { apply Qlt_bool_false.
    replace (ticks w3) with (test_tick w0 fps 0)
      by (unfold test_tick; subst w3; cbn [ticks]; lia).
    unfold elapsed_at in Hclock.
    assert (inject_Z duration <= 0)%Q
      by (change 0%Q with (inject_Z 0); rewrite <- Zle_Qle; exact Hd).
    lra. }
  assert (Hloop : video_loop (S fuel) (time_time (start_tick w0 fps)) duration fps
                    (filepath_of (datetime_now (S (start_tick w0 fps)))
                                 output_dir filetype) None feed' w3 =
                  (Ret (None, feed'),
                   mkWorld (S (ticks w3)) (opens w3) (log w3))).
  { cbn [video_loop]. unfold Prog.bind at 1. unfold read_time at 1.
    cbv beta iota. rewrite Htest. reflexivity. }
  exists feed', w3, (mkWorld (S (ticks w3)) (opens w3) (log w3)).
  eexists.
  split; [unfold test_tick; subst w3; cbn [ticks]; lia|].
  split; [exact Hloop|]. split; [reflexivity|].
  split.
  - change (capture_single_video (S fuel) index duration fps output_dir filetype w0)
      with (capture_video_on (S fuel) feed duration fps output_dir filetype w1).
    rewrite (capture_video_on_after_ramp _ _ _ _ _ _ _ _ _ Hr).
    fold w3. rewrite Hstart. unfold Prog.bind at 1. rewrite Hloop.
    reflexivity.
  - transitivity (device_log w2); [reflexivity|].
    rewrite Hl.
    apply (device_log_emit w0 w1 (EvOpen (Camera index)) eq_refl eq_refl).
Qed.
End CaptureClaims.

Section FileClaims.
Context {P : Platform}.

Lemma create_filepath_run (output_folder filetype : string) (w : world) :
  create_filepath output_folder filetype w =
    (Ret (filepath_of (datetime_now (ticks w)) output_folder filetype),
     mkWorld (S (ticks w)) (opens w) (log w)).
Proof. reflexivity. Qed.

(** C8.  Two calls of [create_filepath] with the same folder and
    extension, made at clock readings that fall in the same local second,
    return the same path, and that path is the folder, the separator,
    the stamp YYYY-MM-DD-HH-MM-SS, a dot and the extension. *)
Theorem create_filepath_same_second (w1 w2 : world)
        (output_folder filetype : string) :
  valid_datetime (datetime_now (ticks w1)) ->
  same_second (datetime_now (ticks w1)) (datetime_now (ticks w2)) ->
  fst (create_filepath output_folder filetype w1) =
    fst (create_filepath output_folder filetype w2) /\
  fst (create_filepath output_folder filetype w1) =
    Ret (output_folder ++ os_path_sep ++
         stamp_form (datetime_now (ticks w1)) ++ "." ++ filetype).
Proof.
  intros Hv Hs. rewrite !create_filepath_run. cbn [fst].
  unfold filepath_of, filename_of.
  rewrite <- (strftime_same_second _ _ Hs).
  split; [reflexivity|].
  now rewrite (strftime_stamp_form _ Hv).
Qed.

(** the run of [capture_single_frame] on a camera that delivers the 30
    warm-up frames and one more *)
Lemma capture_single_frame_run (index : Z) (output_dir filetype : string)
      (w0 : world) :
  let cam := fresh_capture (Camera index) w0 in
  List.length (frames_from cam 0 31) = 31%nat ->
  exists (w' : world) (f : frame),
    frame_at cam 30 = Some f /\
    capture_single_frame index output_dir filetype w0 = (Ret tt, w') /\
    device_log w' =
      (device_log w0 ++
       [EvOpen (Camera index);
        EvImwrite (filepath_of (datetime_now (ticks w0 + 62)) output_dir filetype)
                  (processed true true 640 f);
        EvInfo "Frame was captured.";
        EvRelease (Camera index)])%list.
Proof.
  intros cam Hfr.
  set (feed := mkCameraFeed index cam 640 480 30 (1 # 30)).
  set (w1 := mkWorld (ticks w0) (S (opens w0)) (log w0 ++ [EvOpen (Camera index)])).
  destruct (frames_from_full_split cam 30 1 0 Hfr) as [Hramp Hone].
  destruct (ramp_loop_full 30 feed w1 Hramp) as (w2 & Hr & Ht & Ho & Hl).
  set (feed' := set_camera_feed feed (advance_by 30 (camera_feed feed))) in Hr.
  destruct (frames_from_full_S _ _ _ Hone) as (f & Hf & _ & _).
  destruct (CameraFeed_get_next_some true true feed' w2 f) as (w3 & Hg & Ht3 & Ho3 & Hl3).
  { exact Hf. }
  exists (mkWorld (S (ticks w3)) (opens w3)
            (((log w3 ++
               [EvImwrite (filepath_of (datetime_now (ticks w3)) output_dir filetype)
                          (processed true true 640 f)]) ++
              [EvInfo "Frame was captured."]) ++ [EvRelease (Camera index)])), f.
  split; [exact Hf|]. split.
  - change (capture_single_frame index output_dir filetype w0)
      with ((camera_feed <- ramp 30 feed ;;
             r <- CameraFeed_get_next true true camera_feed ;;
             let '(frame, camera_feed) := r in
             filepath <- create_filepath output_dir filetype ;;
             imwrite filepath frame ;;;
             emit (EvInfo "Frame was captured.") ;;;
             _ <- CameraFeed_close camera_feed ;;
             Prog.ret tt) w1).
    unfold ramp. change (Z.to_nat 30) with 30%nat.
    unfold Prog.bind at 1. rewrite Hr.
    unfold Prog.bind at 1. rewrite Hg. reflexivity.
  - unfold device_log at 1. cbn [log]. rewrite !filter_app.
    cbn [filter is_sleep negb]. fold (device_log w3).
    rewrite Hl3, Hl.
    rewrite (device_log_emit w0 w1 (EvOpen (Camera index)) eq_refl eq_refl).
    replace (ticks w3) with (ticks w0 + 62)%nat
      by (rewrite Ht3, Ht; subst w1; cbn [ticks]; lia).
    rewrite <- !app_assoc. reflexivity.
Qed.

(** C7 (as amended).  Single-frame capture into [out/captured_frames]
    with file type [jpg], on a camera that delivers its frames and at a
    local time with a four-digit year, writes exactly one image; its
    path is the directory, the separator, a basename of 19 characters
    (the stamp YYYY-MM-DD-HH-MM-SS) and the extension [.jpg]. *)
Theorem capture_single_frame_one_file (index : Z) (w0 : world) :
  let cam := fresh_capture (Camera index) w0 in
  List.length (frames_from cam 0 31) = 31%nat ->
  valid_datetime (datetime_now (ticks w0 + 62)) ->
  exists (w' : world) (f : frame) (basename : string),
    capture_single_frame index "out/captured_frames" "jpg" w0 = (Ret tt, w') /\
    imwrites w' =
      (imwrites w0 ++
       [(("out/captured_frames" ++ os_path_sep ++ basename ++ ".jpg")%string, f)])%list /\
    basename = stamp_form (datetime_now (ticks w0 + 62)) /\
    String.length basename = 19%nat.
Proof.
  intros cam Hfr Hv.
  destruct (capture_single_frame_run index "out/captured_frames" "jpg" w0 Hfr)
    as (w' & f & _ & Hrun & Hl).
  exists w', (processed true true 640 f),
    (stamp_form (datetime_now (ticks w0 + 62))).
  split; [exact Hrun|]. split; [|split; [reflexivity | apply stamp_form_length]].
  rewrite !imwrites_device_log, Hl, flat_map_app. cbn [flat_map app].
  unfold filepath_of, filename_of.
  now rewrite (strftime_stamp_form _ Hv).
Qed.

(** C5.  [main] on the parsed arguments: type [frame] with one camera
    is exactly [capture_single_frame()]; type [video] with one camera is
    exactly [capture_single_video()] with its defaults, 5 seconds at 30
    fps; any other pair only prints one message: no capture object is
    constructed and nothing else is logged. *)
Theorem main_dispatch (fuel : nat) (parsed : parsed_args) (w : world) :
  (capture_type parsed = "frame" -> num_cameras parsed = 1 ->
   main fuel parsed w = capture_single_frame 0 "out/captured_frames" "jpg" w) /\
  (capture_type parsed = "video" -> num_cameras parsed = 1 ->
   main fuel parsed w =
     capture_single_video fuel 0 5 30 "out/captured_videos" "avi" w) /\
  (~ (num_cameras parsed = 1 /\
      (capture_type parsed = "frame" \/ capture_type parsed = "video")) ->
   exists msg : string,
     (main fuel parsed w =
        (Ret tt, mkWorld (ticks w) (opens w) (log w ++ [EvInfo msg])) \/
      main fuel parsed w =
        (Ret tt, mkWorld (ticks w) (opens w) (log w ++ [EvError msg])))).
Proof.
  unfold main. repeat split.
  - intros Ht Hn. rewrite Ht, Hn. reflexivity.
  - intros Ht Hn. rewrite Ht, Hn. reflexivity.
  - intros Hnot.
    destruct (String.eqb_spec (capture_type parsed) "frame") as [Hf|Hf].
    + destruct (Z.eqb_spec (num_cameras parsed) 1) as [Hn|Hn];
        [exfalso; apply Hnot; auto|].
      eexists; left; reflexivity.
    + destruct (String.eqb_spec (capture_type parsed) "video") as [Hv|Hv].
      * destruct (Z.eqb_spec (num_cameras parsed) 1) as [Hn|Hn];
          [exfalso; apply Hnot; auto|].
        eexists; left; reflexivity.
      * eexists; right; reflexivity.
Qed.
End FileClaims.

(** ** feed.py: probes and pacing *)

Lemma Qpositive_true (q : Q) : Qpositive q = true <-> (0 < q)%Q.
Proof. unfold Qpositive, Qlt. cbn. rewrite Z.mul_1_r. apply Z.ltb_lt. Qed.

Lemma Qpositive_false (q : Q) : Qpositive q = false <-> (q <= 0)%Q.
Proof. unfold Qpositive, Qle. cbn. rewrite Z.mul_1_r. apply Z.ltb_ge. Qed.

Section FeedClaims.
Context {P : Platform}.

Lemma set_camera_feed_same (self : CameraFeed) :
  set_camera_feed self (camera_feed self) = self.
Proof. now destruct self. Qed.

Lemma set_video_feed_same (self : VideoFeed) :
  set_video_feed self (video_feed self) = self.
Proof. now destruct self. Qed.

Lemma VideoFeed_get_next_some (resize correct : bool) (self : VideoFeed)
      (w : world) (f : frame) :
  frame_at (video_feed self) (cap_pos (video_feed self)) = Some f ->
  VideoFeed_get_next resize correct self w =
    (Ret (Some (processed resize correct (vid_width self) f),
          set_video_feed self (advance_by 1 (video_feed self))), w).
Proof.
  intros H. unfold VideoFeed_get_next. rewrite (read_some _ f H).
  destruct correct, resize; reflexivity.
Qed.

(** what [get_next] asks [time.sleep] for: with [t] the difference of its
    two clock readings, [frame_duration - t - 0.072906] when that is
    positive, and nothing otherwise *)
Lemma CameraFeed_get_next_pacing (resize correct : bool) (self : CameraFeed)
      (w : world) (f : frame) :
  let t := (time_time (S (ticks w)) - time_time (ticks w))%Q in
  frame_at (camera_feed self) (cap_pos (camera_feed self)) = Some f ->
  ((t < frame_duration self - fps_residual)%Q ->
   log (snd (CameraFeed_get_next resize correct self w)) =
     (log w ++ [EvSleep (frame_duration self - t - fps_residual)])%list) /\
  ((frame_duration self - fps_residual <= t)%Q ->
   log (snd (CameraFeed_get_next resize correct self w)) = log w).
Proof.
  intros t H. unfold CameraFeed_get_next, Prog.bind, read_time.
  rewrite (read_some _ f H).
  destruct correct, resize; cbn [call_correct call_resize Prog.ret ticks];
    fold t;
    (split; intros Ht;
     [ assert (Hp : Qpositive (frame_duration self - t - fps_residual) = true)
         by (apply Qpositive_true; lra)
     | assert (Hp : Qpositive (frame_duration self - t - fps_residual) = false)
         by (apply Qpositive_false; lra) ];
     rewrite Hp; reflexivity).
Qed.

Lemma CameraFeed_is_valid_true (self : CameraFeed) (w : world) (f0 : frame) :
  frame_at (camera_feed self) (cap_pos (camera_feed self)) = Some f0 ->
  CameraFeed_is_valid self w =
    (Ret (true, set_camera_feed self (fresh_capture (Camera (feed_index self)) w)),
     mkWorld (ticks w) (S (opens w))
             (log w ++ [EvPrint (valid_msg "Index " (str_Z (feed_index self)));
                        EvRelease (cap_src (camera_feed self));
                        EvOpen (Camera (feed_index self))])).
Proof.
  intros H. unfold CameraFeed_is_valid. rewrite (grab_some _ f0 H).
  cbv [Prog.bind emit Prog.modify release VideoCapture Prog.ret].
  cbn [ticks opens log advance_by cap_src]. unfold fresh_capture, valid_msg.
  rewrite <- !app_assoc. reflexivity.
Qed.

Lemma CameraFeed_is_valid_false (self : CameraFeed) (w : world) :
  frame_at (camera_feed self) (cap_pos (camera_feed self)) = None ->
  CameraFeed_is_valid self w =
    (Ret (false, self),
     mkWorld (ticks w) (opens w)
             (log w ++ [EvPrint (invalid_msg "Index " (str_Z (feed_index self)))])).
Proof.
  intros H. unfold CameraFeed_is_valid. rewrite (grab_none _ H).
  cbv [Prog.bind emit Prog.modify Prog.ret]. cbn [ticks opens log].
  now rewrite set_camera_feed_same.
Qed.

Lemma VideoFeed_is_valid_true (self : VideoFeed) (w : world) (f0 : frame) :
  frame_at (video_feed self) (cap_pos (video_feed self)) = Some f0 ->
  VideoFeed_is_valid self w =
    (Ret (true, set_video_feed self (fresh_capture (File (vid_path self)) w)),
     mkWorld (ticks w) (S (opens w))
             (log w ++ [EvStderr (valid_msg "Video file " (vid_path self));
                        EvRelease (cap_src (video_feed self));
                        EvOpen (File (vid_path self))])).
Proof.
  intros H. unfold VideoFeed_is_valid. rewrite (grab_some _ f0 H).
  cbv [Prog.bind emit Prog.modify release VideoCapture Prog.ret].
  cbn [ticks opens log advance_by cap_src]. unfold fresh_capture, valid_msg.
  rewrite <- !app_assoc. reflexivity.
Qed.

Lemma VideoFeed_is_valid_false (self : VideoFeed) (w : world) :
  frame_at (video_feed self) (cap_pos (video_feed self)) = None ->
  VideoFeed_is_valid self w =
    (Ret (false, self),
     mkWorld (ticks w) (opens w)
             (log w ++ [EvStderr (invalid_msg "Video file " (vid_path self))])).
Proof.
  intros H. unfold VideoFeed_is_valid. rewrite (grab_none _ H).
  cbv [Prog.bind emit Prog.modify Prog.ret]. cbn [ticks opens log].
  now rewrite set_video_feed_same.
Qed.

(** C4.  For a camera feed and for a video feed alike: when the probe
    can grab a frame, [is_valid] returns [True] after reporting,
    releasing the capture object and constructing a new one on the same
    index or path, in that order; the new object stands before its first
    frame, so a [get_next] right after the probe returns the first frame
    it delivers (processed as asked), not the second.  When the probe
    cannot grab a frame, [is_valid] returns [False] after reporting:
    nothing is released, no capture object is constructed, and the feed
    is left as it was. *)
Theorem is_valid_probe (cam : CameraFeed) (vid : VideoFeed) (w : world)
        (resize correct : bool) :
  (forall f0 f1 : frame,
     frame_at (camera_feed cam) (cap_pos (camera_feed cam)) = Some f0 ->
     stream (Camera (feed_index cam)) (opens w) 0 = Some f1 ->
     exists (cam' cam'' : CameraFeed) (w' w'' : world),
       is_valid cam w = (Ret (true, cam'), w') /\
       log w' = (log w ++ [EvPrint (valid_msg "Index " (str_Z (feed_index cam)));
                           EvRelease (cap_src (camera_feed cam));
                           EvOpen (Camera (feed_index cam))])%list /\
       camera_feed cam' = fresh_capture (Camera (feed_index cam)) w /\
       get_next resize correct cam' w' =
         (Ret (Some (processed resize correct (cam_width cam) f1), cam''), w'')) /\
  (frame_at (camera_feed cam) (cap_pos (camera_feed cam)) = None ->
   exists w' : world,
     is_valid cam w = (Ret (false, cam), w') /\ opens w' = opens w /\
     log w' = (log w ++ [EvPrint (invalid_msg "Index "
                                    (str_Z (feed_index cam)))])%list) /\
  (forall f0 f1 : frame,
     frame_at (video_feed vid) (cap_pos (video_feed vid)) = Some f0 ->
     stream (File (vid_path vid)) (opens w) 0 = Some f1 ->
     exists (vid' vid'' : VideoFeed) (w' : world),
       is_valid vid w = (Ret (true, vid'), w') /\
       log w' = (log w ++ [EvStderr (valid_msg "Video file " (vid_path vid));
                           EvRelease (cap_src (video_feed vid));
                           EvOpen (File (vid_path vid))])%list /\
       video_feed vid' = fresh_capture (File (vid_path vid)) w /\
       get_next resize correct vid' w' =
         (Ret (Some (processed resize correct (vid_width vid) f1), vid''), w')) /\
  (frame_at (video_feed vid) (cap_pos (video_feed vid)) = None ->
   exists w' : world,
     is_valid vid w = (Ret (false, vid), w') /\ opens w' = opens w /\
     log w' = (log w ++ [EvStderr (invalid_msg "Video file "
                                     (vid_path vid))])%list).
Proof.
  cbn [is_valid get_next CameraFeed_Feed VideoFeed_Feed].
  split; [|split; [|split]].
  - intros f0 f1 H0 H1.
    set (cam' := set_camera_feed cam (fresh_capture (Camera (feed_index cam)) w)).
    destruct (CameraFeed_get_next_some resize correct cam'
                (mkWorld (ticks w) (S (opens w))
                   (log w ++ [EvPrint (valid_msg "Index " (str_Z (feed_index cam)));
                              EvRelease (cap_src (camera_feed cam));
                              EvOpen (Camera (feed_index cam))])) f1)
      as (w'' & Hg & _).
    { exact H1. }
    eexists cam', _, _, w''.
    rewrite (CameraFeed_is_valid_true cam w f0 H0).
    split; [reflexivity|]. split; [reflexivity|]. split; [reflexivity|].
    exact Hg.
  - intros H. rewrite (CameraFeed_is_valid_false cam w H).
    eexists. repeat split.
  - intros f0 f1 H0 H1.
    rewrite (VideoFeed_is_valid_true vid w f0 H0).
    do 3 eexists.
    split; [reflexivity|]. split; [reflexivity|]. split; [reflexivity|].
    exact (VideoFeed_get_next_some resize correct
             (set_video_feed vid (fresh_capture (File (vid_path vid)) w)) _ f1 H1).
  - intros H. rewrite (VideoFeed_is_valid_false vid w H).
    eexists. repeat split.
Qed.

(** C9.  [has_next] is [grab]: it returns what [grab] returns and
    leaves the capture object where [grab] leaves it, one frame further
    whenever it answers [True].  So on a source standing before frames
    [f1], [f2], [has_next] followed by [get_next] yields [f2]. *)
Theorem has_next_consumes (cam : CameraFeed) (vid : VideoFeed) (w : world)
        (resize correct : bool) :
  has_next cam w =
    (Ret (fst (grab (camera_feed cam)),
          set_camera_feed cam (snd (grab (camera_feed cam)))), w) /\
  has_next vid w =
    (Ret (fst (grab (video_feed vid)),
          set_video_feed vid (snd (grab (video_feed vid)))), w) /\
  (forall f1 f2 : frame,
     frame_at (video_feed vid) (cap_pos (video_feed vid)) = Some f1 ->
     frame_at (video_feed vid) (S (cap_pos (video_feed vid))) = Some f2 ->
     exists vid1 vid2 : VideoFeed,
       has_next vid w = (Ret (true, vid1), w) /\
       cap_pos (video_feed vid1) = S (cap_pos (video_feed vid)) /\
       get_next resize correct vid1 w =
         (Ret (Some (processed resize correct (vid_width vid) f2), vid2), w)) /\
  (forall f1 f2 : frame,
     frame_at (camera_feed cam) (cap_pos (camera_feed cam)) = Some f1 ->
     frame_at (camera_feed cam) (S (cap_pos (camera_feed cam))) = Some f2 ->
     exists (cam1 cam2 : CameraFeed) (w' : world),
       has_next cam w = (Ret (true, cam1), w) /\
       cap_pos (camera_feed cam1) = S (cap_pos (camera_feed cam)) /\
       get_next resize correct cam1 w =
         (Ret (Some (processed resize correct (cam_width cam) f2), cam2), w')).
Proof.
  cbn [has_next get_next CameraFeed_Feed VideoFeed_Feed].
  unfold CameraFeed_has_next, VideoFeed_has_next.
  split; [now destruct (grab (camera_feed cam))|].
  split; [now destruct (grab (video_feed vid))|].
  split.
  - intros f1 f2 H1 H2. rewrite (grab_some _ f1 H1).
    do 2 eexists. split; [reflexivity|]. split; [reflexivity|].
    exact (VideoFeed_get_next_some resize correct
             (set_video_feed vid (advance_by 1 (video_feed vid))) w f2 H2).
  - intros f1 f2 H1 H2. rewrite (grab_some _ f1 H1).
    destruct (CameraFeed_get_next_some resize correct
                (set_camera_feed cam (advance_by 1 (camera_feed cam))) w f2)
      as (w' & Hg & _).
    { exact H2. }
    do 3 eexists. split; [reflexivity|]. split; [reflexivity|].
    exact Hg.
Qed.
End FeedClaims.

(** ** The representer: sorting the items of a dict *)

Lemma string_leb_trans (s1 s2 s3 : string) :
  (s1 <=? s2)%string = true -> (s2 <=? s3)%string = true ->
  (s1 <=? s3)%string = true.
Proof.
  unfold String.leb. revert s2 s3.
  induction s1 as [|c1 s1 IH]; intros [|c2 s2] [|c3 s3]; cbn; try easy.
  unfold Ascii.compare.
  destruct (N.compare_spec (N_of_ascii c1) (N_of_ascii c2)) as [E12|L12|G12];
    destruct (N.compare_spec (N_of_ascii c2) (N_of_ascii c3)) as [E23|L23|G23];
    destruct (N.compare_spec (N_of_ascii c1) (N_of_ascii c3)) as [E13|L13|G13];
    try easy; try lia.
  apply IH.
Qed.

Lemma insert_item_perm (x : item) (l : list item) :
  Permutation (insert_item x l) (x :: l).
Proof.
  induction l as [|y l IH]; cbn; [reflexivity|].
  destruct (fst x <=? fst y)%string; [reflexivity|].
  rewrite IH. apply perm_swap.
Qed.

Lemma sort_items_perm (l : list item) : Permutation (sort_items l) l.
Proof.
  induction l as [|x l IH]; cbn; [reflexivity|].
  rewrite insert_item_perm. now constructor.
Qed.

Lemma insert_item_sorted (x : item) (l : list item) :
  StronglySorted key_le l -> StronglySorted key_le (insert_item x l).
Proof.
  induction 1 as [|y l Hs IH Hy]; cbn.
  - repeat constructor.
  - destruct (fst x <=? fst y)%string eqn:E.
    + constructor; [now constructor|].
      constructor; [exact E|].
      eapply Forall_impl; [|exact Hy].
      intros z Hz. unfold key_le in *. now apply (string_leb_trans _ (fst y)).
    + constructor; [exact IH|].
      assert (Hyx : key_le y x).
      { unfold key_le. destruct (String.leb_total (fst x) (fst y)); congruence. }
      rewrite (Forall_forall (key_le y)). intros z Hz.
      apply (Permutation_in _ (insert_item_perm x l)) in Hz.
      destruct Hz as [<-|Hz]; [exact Hyx|].
      now apply (proj1 (Forall_forall _ _) Hy).
Qed.

Lemma sort_items_sorted (l : list item) : StronglySorted key_le (sort_items l).
Proof.
  induction l as [|x l IH]; cbn; [constructor | now apply insert_item_sorted].
Qed.

(** two sorted arrangements of the same entries, no key twice, are equal *)
Lemma sorted_perm_unique (l1 : list item) : forall l2 : list item,
  StronglySorted key_le l1 -> StronglySorted key_le l2 ->
  Permutation l1 l2 -> NoDup (map fst l1) -> l1 = l2.
Proof.
  induction l1 as [|a l1 IH]; intros l2 H1 H2 Hp Hn.
  - now apply Permutation_nil in Hp.
  - destruct l2 as [|b l2]; [now apply Permutation_sym, Permutation_nil in Hp|].
    apply StronglySorted_inv in H1 as [H1 Ha].
    apply StronglySorted_inv in H2 as [H2 Hb].
    inversion Hn as [|? ? Hnotin Hn']; subst.
    assert (Hab : a = b).
    { assert (Hina : In a (b :: l2)) by (apply (Permutation_in _ Hp); now left).
      assert (Hinb : In b (a :: l1))
        by (apply (Permutation_in _ (Permutation_sym Hp)); now left).
      destruct Hina as [E|Hina]; [now symmetry|].
      destruct Hinb as [E|Hinb]; [exact E|].
      exfalso. apply Hnotin.
      assert (Hk : fst a = fst b).
      { apply String.leb_antisym.
        - exact (proj1 (Forall_forall _ _) Ha b Hinb).
        - exact (proj1 (Forall_forall _ _) Hb a Hina). }
      rewrite Hk. now apply in_map. }
    subst b. f_equal. apply IH; try assumption.
    now apply Permutation_cons_inv in Hp.
Qed.

Lemma sort_items_permuted (l l' : list item) :
  Permutation l' l -> NoDup (map fst l) -> sort_items l' = sort_items l.
Proof.
  intros Hp Hn. apply sorted_perm_unique; try apply sort_items_sorted.
  - now rewrite !sort_items_perm.
  - apply (Permutation_NoDup (l := map fst l)); [|exact Hn].
    apply Permutation_map. symmetry. now rewrite sort_items_perm.
Qed.

(** whatever order a plain dict enumerates in, its dump is sorted by key *)
Lemma represent_dict_plain {O : DictOrder} (entries : list item) :
  NoDup (map fst entries) ->
  represent_dict (mkDict entries) = sort_items entries.
Proof.
  intros Hn. unfold represent_dict. cbn.
  apply sort_items_permuted; [apply iteration_order_perm | exact Hn].
Qed.

(** the dump of an [UnsortableOrderedDict] keeps the order of insertion *)
Lemma represent_dict_unsortable (entries : list item) :
  represent_dict (mkUOD entries) = entries.
Proof. reflexivity. Qed.

(** ** configure.py *)

Section ConfigureClaims.
Context {O : DictOrder}.
Import Configure.

Lemma ask_int_some (prompt line : string) (n : Z) (rest : list string)
      (ok : bool) (tr : list io_event) :
  int_of_str line = Some n ->
  ask_int prompt (mkConsole (line :: rest) ok tr) =
    (Ret (Some n), mkConsole rest ok (tr ++ [Prompt prompt])).
Proof.
  intros H. cbv [ask_int Prog.try_except Prog.bind raw_input say Prog.modify
                 py_int Prog.ret]. cbn [stdin config_dir_exists trace].
  now rewrite H.
Qed.

Lemma ask_int_none (prompt line : string) (rest : list string)
      (ok : bool) (tr : list io_event) :
  int_of_str line = None ->
  ask_int prompt (mkConsole (line :: rest) ok tr) =
    (Ret None, mkConsole rest ok
                 ((tr ++ [Prompt prompt]) ++ [Print "Please enter a number."])).
Proof.
  intros H. cbv [ask_int Prog.try_except Prog.bind raw_input say Prog.modify
                 py_int Prog.ret Prog.raise]. cbn [stdin config_dir_exists trace].
  now rewrite H.
Qed.

Lemma raw_input_line (prompt line : string) (rest : list string)
      (ok : bool) (tr : list io_event) :
  raw_input prompt (mkConsole (line :: rest) ok tr) =
    (Ret line, mkConsole rest ok (tr ++ [Prompt prompt])).
Proof. reflexivity. Qed.

(** C1: what the code does.  When the three numeric fields parse and
    the directory exists, [parse] asks its seven questions and dumps the
    profile once, and whatever order the dict enumerates in, the keys
    come out sorted: dest-dir, format, key-frame, left-index,
    right-index, source-dir, width; not in the order they were written
    in. *)
Theorem parse_dumps_sorted (ls rs src dst key ws fmt : string) (l r w : Z)
        (rest : list string) (tr : list io_event) :
  int_of_str ls = Some l -> int_of_str rs = Some r -> int_of_str ws = Some w ->
  parse (mkConsole (ls :: rs :: src :: dst :: key :: ws :: fmt :: rest) true tr) =
    (Ret tt,
     mkConsole rest true
       (tr ++ map Prompt parse_prompts ++
        [Dump "config/profile.yml"
           [("dest-dir", VStr dst); ("format", VStr fmt); ("key-frame", VStr key);
            ("left-index", VInt l); ("right-index", VInt r);
            ("source-dir", VStr src); ("width", VInt w)]])) /\
  map fst [("dest-dir", VStr dst); ("format", VStr fmt); ("key-frame", VStr key);
           ("left-index", VInt l); ("right-index", VInt r);
           ("source-dir", VStr src); ("width", VInt w)] <> profile_keys.
Proof.
  intros Hl Hr Hw. split; [|discriminate].
  unfold parse.
  unfold Prog.bind at 1. rewrite (ask_int_some _ _ _ _ _ _ Hl).
  unfold Prog.bind at 1. rewrite (ask_int_some _ _ _ _ _ _ Hr).
  unfold Prog.bind at 1. rewrite raw_input_line.
  unfold Prog.bind at 1. rewrite raw_input_line.
  unfold Prog.bind at 1. rewrite raw_input_line.
  unfold Prog.bind at 1. rewrite (ask_int_some _ _ _ _ _ _ Hw).
  unfold Prog.bind at 1. rewrite raw_input_line.
  cbv [local Prog.bind Prog.ret dump_to Prog.get say Prog.modify].
  cbn [config_dir_exists stdin trace].
  rewrite represent_dict_plain.
  - cbn [map parse_prompts]. rewrite <- !app_assoc. reflexivity.
  - cbn. repeat (constructor; [cbn; intuition congruence|]). constructor.
Qed.

(** C3 (as amended).  When at least one of the three numeric answers
    is not a number, [parse] prints "Please enter a number." once for
    each such answer, asks none of its questions again and asks all
    seven; then reading the first field that was never assigned raises
    [UnboundLocalError], so the run ends before the file is opened:
    nothing is dumped. *)
Theorem parse_non_numeric (ls rs src dst key ws fmt : string)
        (rest : list string) (ok : bool) (tr : list io_event) :
  let left := int_of_str ls in
  let right := int_of_str rs in
  let width := int_of_str ws in
  let c := mkConsole (ls :: rs :: src :: dst :: key :: ws :: fmt :: rest) ok tr in
  left = None \/ right = None \/ width = None ->
  exists c' : console,
    parse c = (Raise (UnboundLocalError (first_unbound left right width)), c') /\
    stdin c' = rest /\
    prompts c' = (prompts c ++ parse_prompts)%list /\
    prints c' = (prints c ++ complaints [left; right; width])%list /\
    dumps c' = dumps c.
Proof.
  intros left right width c Hbad. subst c. unfold parse.
  destruct (int_of_str ls) as [l|] eqn:Hl;
    destruct (int_of_str rs) as [r|] eqn:Hr;
    destruct (int_of_str ws) as [w|] eqn:Hw;
    subst left right width;
    try (exfalso; destruct Hbad as [H|[H|H]]; discriminate H);
    unfold Prog.bind at 1;
    rewrite ?(ask_int_some _ _ _ _ _ _ Hl), ?(ask_int_none _ _ _ _ _ Hl);
    unfold Prog.bind at 1;
    rewrite ?(ask_int_some _ _ _ _ _ _ Hr), ?(ask_int_none _ _ _ _ _ Hr);
    unfold Prog.bind at 1; rewrite raw_input_line;
    unfold Prog.bind at 1; rewrite raw_input_line;
    unfold Prog.bind at 1; rewrite raw_input_line;
    unfold Prog.bind at 1;
    rewrite ?(ask_int_some _ _ _ _ _ _ Hw), ?(ask_int_none _ _ _ _ _ Hw);
    unfold Prog.bind at 1; rewrite raw_input_line;
    cbv [local Prog.bind Prog.ret Prog.raise first_unbound];
    eexists; (split; [reflexivity|]);
    cbn [stdin trace]; unfold prompts, prints, dumps; cbn [trace];
    rewrite !flat_map_app; cbn [flat_map app complaints];
    rewrite ?app_nil_r; repeat split; rewrite <- ?app_assoc; reflexivity.
Qed.
End ConfigureClaims.

(** ** The statements at concrete inputs *)

Lemma parse_dumps_sorted_witness :
  Configure.parse (O := reversed_order)
    (demo_console ["0"; "1"; "/data/in"; "/data/out"; "/data/key.jpg"; "640"; "jpg"]) =
    (Ret tt,
     Configure.mkConsole [] true
       (map Configure.Prompt parse_prompts ++
        [Configure.Dump "config/profile.yml"
           [("dest-dir", VStr "/data/out"); ("format", VStr "jpg");
            ("key-frame", VStr "/data/key.jpg"); ("left-index", VInt 0);
            ("right-index", VInt 1); ("source-dir", VStr "/data/in");
            ("width", VInt 640)]])).
Proof.
  exact (proj1 (parse_dumps_sorted (O := reversed_order)
                  "0" "1" "/data/in" "/data/out" "/data/key.jpg" "640" "jpg"
                  0 1 640 [] [] eq_refl eq_refl eq_refl)).
Defined.

Lemma parse_non_numeric_witness :
  exists c' : Configure.console,
    Configure.parse (O := written_order)
      (demo_console ["x"; "1"; "a"; "b"; "c"; "wide"; "jpg"]) =
      (Raise (UnboundLocalError "left_index"), c') /\
    Configure.prints c' = ["Please enter a number."; "Please enter a number."] /\
    Configure.dumps c' = [].
Proof.
  destruct (parse_non_numeric (O := written_order)
              "x" "1" "a" "b" "c" "wide" "jpg" [] true [] (or_introl eq_refl))
    as (c' & Hrun & _ & _ & Hprints & Hdumps).
  exists c'. split; [exact Hrun|]. split; [exact Hprints | exact Hdumps].
Defined.

(** C3, as stated, fails: after a non-numeric left index the run does not
    reach the dump; it ends in an exception with nothing serialized. *)
Lemma parse_non_numeric_counterexample :
  Configure.int_of_str "x" = None /\
  fst (Configure.parse (O := written_order)
         (demo_console ["x"; "1"; "a"; "b"; "c"; "640"; "jpg"])) =
    Raise (UnboundLocalError "left_index") /\
  Configure.dumps
    (snd (Configure.parse (O := written_order)
            (demo_console ["x"; "1"; "a"; "b"; "c"; "640"; "jpg"]))) = [].
Proof. repeat split. Qed.

Lemma is_valid_probe_witness :
  exists (vid' vid'' : VideoFeed) (w' : world),
    is_valid (Feed := VideoFeed_Feed (P := file_platform)) demo_video_feed world1 =
      (Ret (true, vid'), w') /\
    get_next (Feed := VideoFeed_Feed (P := file_platform)) false false vid' w' =
      (Ret (Some frame_1, vid''), w').
Proof.
  destruct (proj1 (proj2 (proj2 (is_valid_probe (P := file_platform)
                                   demo_camera_feed demo_video_feed world1
                                   false false)))
              frame_1 frame_1 eq_refl eq_refl)
    as (vid' & vid'' & w' & Hvalid & _ & _ & Hnext).
  exists vid', vid'', w'. split; [exact Hvalid | exact Hnext].
Defined.

Lemma has_next_consumes_witness :
  exists vid1 vid2 : VideoFeed,
    has_next (Feed := VideoFeed_Feed (P := file_platform)) demo_video_feed world1 =
      (Ret (true, vid1), world1) /\
    get_next (Feed := VideoFeed_Feed (P := file_platform)) false false vid1 world1 =
      (Ret (Some frame_2, vid2), world1).
Proof.
  destruct (proj1 (proj2 (proj2 (has_next_consumes (P := file_platform)
                                   demo_camera_feed demo_video_feed world1
                                   false false)))
              frame_1 frame_2 eq_refl eq_refl)
    as (vid1 & vid2 & Hhas & _ & Hnext).
  exists vid1, vid2. split; [exact Hhas | exact Hnext].
Defined.

Lemma main_dispatch_witness :
  main (P := demo_platform) 10 (mkArgs "frame" 1) world0 =
    capture_single_frame (P := demo_platform) 0 "out/captured_frames" "jpg" world0 /\
  main (P := demo_platform) 10 (mkArgs "video" 1) world0 =
    capture_single_video (P := demo_platform) 10 0 5 30 "out/captured_videos" "avi"
                         world0.
Proof.
  split.
  - exact (proj1 (main_dispatch (P := demo_platform) 10 (mkArgs "frame" 1) world0)
             eq_refl eq_refl).
  - exact (proj1 (proj2 (main_dispatch (P := demo_platform) 10 (mkArgs "video" 1)
                           world0)) eq_refl eq_refl).
Defined.

Lemma demo_frames (index : Z) (n : nat) :
  List.length (frames_from (P := demo_platform)
                 (fresh_capture (Camera index) world0) 0 n) = n.
Proof.
  generalize 0%nat. induction n as [|n IH]; intros p; [reflexivity|].
  cbn. now rewrite IH.
Defined.



Lemma capture_single_video_nonpositive_witness :
  exists w' : world,
    capture_single_video (P := demo_platform) 1 0 0 5 "out/captured_videos" "avi"
                         world0 = (Raise (AttributeError "release"), w') /\
    device_log w' = [EvOpen (Camera 0)].
Proof.
  assert (Hclock : (0 <= elapsed_at (P := demo_platform) world0 5 0)%Q)
    by (vm_compute; discriminate).
  destruct (capture_single_video_nonpositive (P := demo_platform) 0 0 5
              "out/captured_videos" "avi" world0 1
              ltac:(lia) Hclock (demo_frames 0 _) ltac:(lia))
    as (feed & w3 & w4 & w' & _ & _ & _ & Hrun & Hlog).
  exists w'. split; [exact Hrun | exact Hlog].
Defined.

Lemma demo_datetime_valid (n : nat) :
  valid_datetime (datetime_now (Platform := demo_platform) n).
Proof. unfold valid_datetime. cbn. lia. Defined.

Lemma capture_single_frame_one_file_witness :
  exists (w' : world) (f : frame),
    capture_single_frame (P := demo_platform) 0 "out/captured_frames" "jpg" world0 =
      (Ret tt, w') /\
    imwrites w' = [("out/captured_frames/2026-11-04-10-12-33.jpg", f)].
Proof.
  destruct (capture_single_frame_one_file (P := demo_platform) 0 world0
              (demo_frames 0 31) (demo_datetime_valid _))
    as (w' & f & basename & Hrun & Hw & Hb & _).
  exists w', f. split; [exact Hrun|]. rewrite Hw, Hb. reflexivity.
Defined.

(** C7, as stated, fails: the basename of the one file written is the
    19 characters of 2026-11-04-10-12-33, not 14. *)
Lemma capture_single_frame_counterexample :
  ~ (exists (basename : string) (f : frame),
       String.length basename = 14%nat /\
       imwrites (snd (capture_single_frame (P := demo_platform) 0
                        "out/captured_frames" "jpg" world0)) =
         [(("out/captured_frames" ++ "/" ++ basename ++ ".jpg")%string, f)]).
Proof.
  intros (basename & f & Hlen & Hw).
  assert (E : imwrites (snd (capture_single_frame (P := demo_platform) 0
                               "out/captured_frames" "jpg" world0)) =
              [("out/captured_frames/2026-11-04-10-12-33.jpg",
                mkFrame (480, 640) [30])]) by (vm_compute; reflexivity).
  rewrite E in Hw. injection Hw as Hpath _.
  apply (f_equal String.length) in Hpath.
  rewrite !length_append, Hlen in Hpath. cbn in Hpath. lia.
Qed.

Lemma create_filepath_same_second_witness :
  fst (create_filepath (P := demo_platform) "out/captured_frames" "jpg" world0) =
    fst (create_filepath (P := demo_platform) "out/captured_frames" "jpg"
           (mkWorld 5 0 [])) /\
  microsecond (datetime_now (Platform := demo_platform) 0) <>
    microsecond (datetime_now (Platform := demo_platform) 5).
Proof.
  split; [|discriminate].
  exact (proj1 (create_filepath_same_second (P := demo_platform) world0
                  (mkWorld 5 0 []) "out/captured_frames" "jpg"
                  (demo_datetime_valid _)
                  (conj eq_refl (conj eq_refl (conj eq_refl
                     (conj eq_refl (conj eq_refl eq_refl))))))).
Defined.
